(** * Scraper: a facade over an HTTP client and an HTML query engine

    Shallow embedding of [lib/scraper.py].  The class [Scraper] keeps two
    fields, [soup] and [html_content]; its two load methods assign both, its
    query methods read [soup] and delegate to Beautiful Soup.  The HTTP client
    ([requests]) and the query engine ([bs4]) are collaborators of the
    program: the first is modelled as a network that answers requests and
    remembers them, the second as an interface with the operations the class
    calls. *)

From Stdlib Require Import Ascii String.
From stdpp Require Import base option list numbers strings gmap.

Open Scope string_scope.

(** ** Python exceptions and results *)

(** The ways [requests.get] fails before any response exists. *)
Inductive transport_failure :=
| DNSFailure
| ConnectionRefused
| Timeout
| InvalidURL.

(** The exceptions that can leave a method of [Scraper]. *)
Inductive exn :=
| ValueError (msg : string)
| NameError (name : string)
| TypeError (msg : string)
| HTTPError (status_code : Z)
| RequestException (why : transport_failure)
| EngineError (msg : string).

(** A Python call either returns a value or raises. *)
Inductive result (A : Type) :=
| Return (a : A)
| Raise (e : exn).
Arguments Return {A} a.
Arguments Raise {A} e.

#[global] Instance result_ret : MRet result := λ A, Return.
#[global] Instance result_bind : MBind result := λ A B f m,
  match m with
  | Return a => f a
  | Raise e => Raise e
  end.
#[global] Instance result_fmap : FMap result := λ A B f m,
  match m with
  | Return a => Return (f a)
  | Raise e => Raise e
  end.

(** The names the specification gives to the failures. *)
Definition not_loaded_msg : string :=
  "No HTML content loaded. Use load_from_url() or load_html() first.".
Definition NotLoadedError : exn := ValueError not_loaded_msg.
Definition HttpStatusError (code : Z) : exn := HTTPError code.
Definition FetchError (why : transport_failure) : exn := RequestException why.

(** ** The HTTP client *)

Record Response := mkResponse { status_code : Z; text : string }.

Record Request := mkRequest { req_url : string; req_headers : gmap string string }.

Inductive Reply :=
| Answered (r : Response)
| Failed (why : transport_failure).

(** The network: what the outside world answers to a GET, given everything
    that was asked before, and the requests handed to the client so far. *)
Record Net := mkNet {
  respond : list Request → Request → Reply;
  sent : list Request
}.

(** [requests.get(url, headers=headers)]: one GET, recorded on the wire. *)
Definition requests_get (n : Net) (url : string) (headers : gmap string string)
  : result Response * Net :=
  let rq := mkRequest url headers in
  let n' := mkNet (respond n) (sent n ++ [rq]) in
  match respond n (sent n) rq with
  | Answered r => (Return r, n')
  | Failed why => (Raise (RequestException why), n')
  end.

(** [Response.raise_for_status()] of the requests library: client errors
    (4xx) and server errors (5xx) raise [HTTPError], every other status
    returns. *)
Definition raise_for_status (r : Response) : result unit :=
  if bool_decide (400 ≤ status_code r < 600)%Z
  then Raise (HTTPError (status_code r))
  else Return ().

Definition is_2xx (code : Z) : bool := bool_decide (200 ≤ code < 300)%Z.

(** ** The HTML query engine *)

(** [Tag.get] returns a string, or a list of strings for a multi-valued
    attribute such as [class]. *)
Inductive AttrValue :=
| AttrStr (s : string)
| AttrList (l : list string).

(** What [Scraper] uses of Beautiful Soup. *)
Class Bs4 := {
  Soup : Type;
  Tag : Type;
  (** [BeautifulSoup(markup, 'html.parser')], for markup the parser accepts;
      the few strings it rejects with an exception are outside the model *)
  BeautifulSoup : string → Soup;
  (** [bool(soup)] *)
  soup_bool : Soup → bool;
  soup_select : Soup → string → result (list Tag);
  soup_select_one : Soup → string → result (option Tag);
  (** [soup.find_all(tag_name, **kwargs)] and [soup.find(tag_name, **kwargs)] *)
  soup_find_all : Soup → string → gmap string string → result (list Tag);
  soup_find : Soup → string → gmap string string → result (option Tag);
  (** [bool(tag)] *)
  tag_bool : Tag → bool;
  (** [tag.get_text(strip=True)] *)
  tag_get_text : Tag → string;
  (** [tag.get(name)] *)
  tag_get : Tag → string → option AttrValue
}.

(** The part of Beautiful Soup's contract the facade relies on: a tag and a
    document are truthy whatever they contain, and [select_one] is the first
    result of [select]. *)
Class Bs4Laws (E : Bs4) : Prop := {
  tag_truthy : ∀ t : Tag, tag_bool t = true;
  soup_truthy : ∀ d : Soup, soup_bool d = true;
  select_one_first : ∀ (d : Soup) (s : string),
    soup_select_one d s = head <$> soup_select d s
}.

(** ** Python name resolution and comprehensions *)

(** The names bound at module level in [lib/scraper.py]. *)
Definition module_globals : list string :=
  ["BeautifulSoup"; "requests"; "Scraper";
   "scrape_flatiron_courses"; "scrape_heading_text"].

(** Reading a name in a method body: a parameter or local of the frame is
    found there; a name bound neither in the frame nor at module level (nor
    among the builtins) raises [NameError].  Only used for such names. *)
Definition load_name (locals : gmap string string) (name : string) : result string :=
  match locals !! name with
  | Some v => Return v
  | None => Raise (NameError name)
  end.

(** [[body(x) for x in l if cond(x)]], evaluated left to right; the first
    exception ends it. *)
Fixpoint comprehension {A B : Type} (cond : A → bool) (body : A → result B)
  (l : list A) : result (list B) :=
  match l with
  | [] => Return []
  | x :: l' =>
      if cond x
      then y ← body x; ys ← comprehension cond body l'; Return (y :: ys)
      else comprehension cond body l'
  end.

(** [sep.join(l)] *)
Definition str_join (sep : string) (l : list string) : string := String.concat sep l.

(** [bool(s)] for a string or [None]. *)
Definition str_bool (s : option string) : bool :=
  match s with
  | Some (String _ _) => true
  | _ => false
  end.

(** Binding of the keyword arguments of a call [f(x, **kwargs)] to a method
    whose parameters are [params]: a keyword that names a parameter already
    given by position is a [TypeError], raised before the body runs. *)
Definition kwargs_collide (params : list string) (kwargs : gmap string string) : bool :=
  existsb (λ p, bool_decide (is_Some (kwargs !! p))) params.

Definition multiple_values_msg : string := "got multiple values for argument".

(** ** The class [Scraper] *)

Section Scraper.
Context {E : Bs4}.

Record Scraper := mkScraper {
  soup : option Soup;
  html_content : option string
}.

(** What a call that may assign to [self] and use the network leaves behind:
    the exception if one was raised, the object, the network. *)
Record Outcome := mkOutcome {
  raised : option exn;
  object : Scraper;
  network : Net
}.

Definition default_headers : gmap string string := {[ "user-agent" := "my-app/0.0.1" ]}.

(** [load_from_url(self, url, headers=None)], the parser accepting the body
    of the response *)
Definition load_from_url (self : Scraper) (url : string)
  (headers : option (gmap string string)) (n : Net) : Outcome :=
  let headers :=
    match headers with
    | None => default_headers
    | Some h => h
    end in
  let '(response, n) := requests_get n url headers in
  match response with
  | Raise e => mkOutcome (Some e) self n
  | Return response =>
      match raise_for_status response with
      | Raise e => mkOutcome (Some e) self n
      | Return _ =>
          let self := mkScraper (soup self) (Some (text response)) in
          let self := mkScraper (Some (BeautifulSoup (text response))) (html_content self) in
          mkOutcome None self n
      end
  end.

(** [load_html(self, html_string)], the parser accepting [html_string]; the
    value is [self] after the call. *)
Definition load_html (self : Scraper) (html_string : string) : Scraper :=
  let self := mkScraper (soup self) (Some html_string) in
  let self := mkScraper (Some (BeautifulSoup html_string)) (html_content self) in
  self.

(** [Scraper(url)]: the new object, unless the eager load raised. *)
Definition init (url : option string) (n : Net) : result Scraper * Net :=
  let self := mkScraper None None in
  if str_bool url
  then
    let o := load_from_url self (default "" url) None n in
    match raised o with
    | Some e => (Raise e, network o)
    | None => (Return (object o), network o)
    end
  else (Return self, n).

Definition select (self : Scraper) (selector : string) : result (list Tag) :=
  match soup self with
  | None => Raise (ValueError not_loaded_msg)
  | Some d => soup_select d selector
  end.

Definition select_one (self : Scraper) (selector : string) : result (option Tag) :=
  match soup self with
  | None => Raise (ValueError not_loaded_msg)
  | Some d => soup_select_one d selector
  end.

Definition find_all (self : Scraper) (tag_name : string) (kwargs : gmap string string)
  : result (list Tag) :=
  if kwargs_collide ["self"; "tag_name"] kwargs
  then Raise (TypeError multiple_values_msg)
  else
    match soup self with
    | None => Raise (ValueError not_loaded_msg)
    | Some d => soup_find_all d tag_name kwargs
    end.

Definition find (self : Scraper) (tag_name : string) (kwargs : gmap string string)
  : result (option Tag) :=
  if kwargs_collide ["self"; "tag_name"] kwargs
  then Raise (TypeError multiple_values_msg)
  else
    match soup self with
    | None => Raise (ValueError not_loaded_msg)
    | Some d => soup_find d tag_name kwargs
    end.

Definition get_text (self : Scraper) (selector : string) : result string :=
  elements ← select self selector;
  let texts := tag_get_text <$> elements in
  Return (str_join " " texts).

Definition get_text_from_element (element : option Tag) : string :=
  match element with
  | None => ""
  | Some element => tag_get_text element
  end.

Definition get_attribute (self : Scraper) (selector attribute : string)
  : result (option AttrValue) :=
  element ← select_one self selector;
  match element with
  | Some el => if tag_bool el then Return (tag_get el attribute) else Return None
  | None => Return None
  end.

(** [get_all_attributes(self, selector)]: the only parameter besides [self]
    is [selector]; the body reads the free name [attribute]. *)
Definition get_all_attributes (self : Scraper) (selector : string)
  : result (list (option AttrValue)) :=
  let locals : gmap string string := {[ "selector" := selector ]} in
  elements ← select self selector;
  comprehension tag_bool
    (λ el, attribute ← load_name locals "attribute"; Return (tag_get el attribute))
    elements.

(** Binding of the positional arguments of a call of
    [scraper.get_all_attributes]. *)
Definition call_get_all_attributes (self : Scraper) (args : list string)
  : result (list (option AttrValue)) :=
  match args with
  | [selector] => get_all_attributes self selector
  | _ => Raise (TypeError "get_all_attributes() takes 2 positional arguments")
  end.

(** The property [title]. *)
Definition title (self : Scraper) : result string :=
  title_tag ←
    match soup self with
    | Some d => if soup_bool d then soup_find d "title" ∅ else Return None
    | None => Return None
    end;
  match title_tag with
  | Some t => Return (if tag_bool t then tag_get_text t else "")
  | None => Return ""
  end.

(** The two fields go together: both absent, or the markup and its parse. *)
Definition fields_agree (self : Scraper) : Prop :=
  soup self = BeautifulSoup <$> html_content self.

(** ** The life of an instance *)

(** The calls a client can make on an instance. *)
Inductive call :=
| LoadFromUrl (url : string) (headers : option (gmap string string))
| LoadHtml (html_string : string)
| Select (selector : string)
| SelectOne (selector : string)
| FindAll (tag_name : string) (kwargs : gmap string string)
| Find (tag_name : string) (kwargs : gmap string string)
| GetText (selector : string)
| GetAttribute (selector attribute : string)
| GetAllAttributes (selector : string)
| Title.

Definition is_load (c : call) : bool :=
  match c with
  | LoadFromUrl _ _ | LoadHtml _ => true
  | _ => false
  end.

Definition exn_of {A : Type} (r : result A) : option exn :=
  match r with
  | Return _ => None
  | Raise e => Some e
  end.

(** One call.  The query methods assign nothing and send nothing. *)
Definition step (self : Scraper) (c : call) (n : Net) : Outcome :=
  match c with
  | LoadFromUrl url headers => load_from_url self url headers n
  | LoadHtml html_string => mkOutcome None (load_html self html_string) n
  | Select s => mkOutcome (exn_of (select self s)) self n
  | SelectOne s => mkOutcome (exn_of (select_one self s)) self n
  | FindAll t kw => mkOutcome (exn_of (find_all self t kw)) self n
  | Find t kw => mkOutcome (exn_of (find self t kw)) self n
  | GetText s => mkOutcome (exn_of (get_text self s)) self n
  | GetAttribute s a => mkOutcome (exn_of (get_attribute self s a)) self n
  | GetAllAttributes s => mkOutcome (exn_of (get_all_attributes self s)) self n
  | Title => mkOutcome (exn_of (title self)) self n
  end.

Definition returned (o : Outcome) : bool :=
  match raised o with
  | None => true
  | Some _ => false
  end.

(** Whether the call was a load that returned. *)
Definition load_completed (c : call) (o : Outcome) : bool :=
  is_load c && returned o.

(** A sequence of calls, the caller going on after an exception; the number
    counts the loads that returned. *)
Fixpoint run (self : Scraper) (n : Net) (calls : list call) : Scraper * Net * nat :=
  match calls with
  | [] => (self, n, 0)
  | c :: calls =>
      let o := step self c n in
      let '(self', n', k) := run (object o) (network o) calls in
      (self', n', (if load_completed c o then 1 else 0) + k)
  end.

(** Construction followed by calls: the final object and the number of loads
    that returned, the constructor's included; nothing when the constructor
    raised. *)
Definition lifetime (url : option string) (n : Net) (calls : list call)
  : option (Scraper * nat) :=
  match init url n with
  | (Raise _, _) => None
  | (Return self, n) =>
      let '(self', _, k) := run self n calls in
      Some (self', (if str_bool url then 1 else 0) + k)
  end.

End Scraper.

Arguments Scraper : clear implicits.
Arguments Outcome : clear implicits.

(** ** A small engine and small networks, to run the class on *)

Module Stub.

Record Elem := mkElem {
  el_name : string;
  el_attrs : list (string * string);
  el_text : string
}.

Fixpoint assoc (k : string) (l : list (string * string)) : option string :=
  match l with
  | [] => None
  | (k', v) :: l => if bool_decide (k' = k) then Some v else assoc k l
  end.

Definition sample_html : string :=
  "<title>Test Page</title><h1 class='heading-financier'>Welcome to Test Page</h1><ul id='items'><li>Item 1</li><li>Item 2</li></ul>".

(** The elements of [sample_html] in document order, each with the text
    [get_text(strip=True)] gives. *)
Definition sample_doc : list Elem :=
  [ mkElem "title" [] "Test Page";
    mkElem "h1" [("class", "heading-financier")] "Welcome to Test Page";
    mkElem "ul" [("id", "items")] "Item 1Item 2";
    mkElem "li" [] "Item 1";
    mkElem "li" [] "Item 2" ].

Definition other_html : string := "<p id='only'>Second page</p>".
Definition other_doc : list Elem := [ mkElem "p" [("id", "only")] "Second page" ].

(** Knows the two pages above; any other markup has no element. *)
Definition parse (markup : string) : list Elem :=
  if bool_decide (markup = sample_html) then sample_doc
  else if bool_decide (markup = other_html) then other_doc
  else [].

(** Selectors [#id], [.class] and [tag]. *)
Definition matches (selector : string) (e : Elem) : bool :=
  match selector with
  | String "#"%char i => bool_decide (assoc "id" (el_attrs e) = Some i)
  | String "."%char c => bool_decide (assoc "class" (el_attrs e) = Some c)
  | _ => bool_decide (el_name e = selector)
  end.

Definition has_attrs (kwargs : gmap string string) (e : Elem) : bool :=
  forallb (λ kv, bool_decide (assoc kv.1 (el_attrs e) = Some kv.2)) (map_to_list kwargs).

Definition named (tag_name : string) (kwargs : gmap string string) (e : Elem) : bool :=
  bool_decide (el_name e = tag_name) && has_attrs kwargs e.

Definition get (e : Elem) (name : string) : option AttrValue :=
  match assoc name (el_attrs e) with
  | None => None
  | Some v => Some (if bool_decide (name = "class") then AttrList [v] else AttrStr v)
  end.

#[export] Instance engine : Bs4 := {|
  Soup := list Elem;
  Tag := Elem;
  BeautifulSoup := parse;
  soup_bool := λ _, true;
  soup_select := λ d s, Return (List.filter (matches s) d);
  soup_select_one := λ d s, Return (head (List.filter (matches s) d));
  soup_find_all := λ d t kw, Return (List.filter (named t kw) d);
  soup_find := λ d t kw, Return (head (List.filter (named t kw) d));
  tag_bool := λ _, true;
  tag_get_text := el_text;
  tag_get := get
|}.

(** A network that gives every request the same reply. *)
Definition always (r : Reply) : Net := mkNet (λ _ _, r) [].

Definition fresh : Scraper engine := mkScraper None None.

(** [Scraper().load_html(sample_html)] *)
Definition sample : Scraper engine := load_html fresh sample_html.

End Stub.

(** ** The rest of the module: [__repr__] and the two example functions *)

(** [str.isspace] on one character, a string being its code points (here
    below 256): tab to carriage return, the four separators 28 to 31, the
    space, NEL and the no-break space. *)
Definition is_space (c : ascii) : bool :=
  let k := nat_of_ascii c in
  bool_decide (9 ≤ k ≤ 13)%nat || bool_decide (28 ≤ k ≤ 31)%nat ||
  bool_decide (k = 32%nat) || bool_decide (k = 133%nat) || bool_decide (k = 160%nat).

Fixpoint lstrip (s : string) : string :=
  match s with
  | String c s' => if is_space c then lstrip s' else s
  | EmptyString => EmptyString
  end.

Fixpoint rstrip (s : string) : string :=
  match s with
  | String c s' =>
      match rstrip s' with
      | EmptyString => if is_space c then EmptyString else String c EmptyString
      | r => String c r
      end
  | EmptyString => EmptyString
  end.

(** [s.strip()] *)
Definition strip (s : string) : string := rstrip (lstrip s).

(** The exceptions that can leave the example functions: those of the class
    and of its collaborators, and [IndexError]. *)
Inductive script_exn :=
| Lib (e : exn)
| IndexError (msg : string).

Inductive completion (A : Type) :=
| Done (a : A)
| Aborted (e : script_exn).
Arguments Done {A} a.
Arguments Aborted {A} e.

(** A child of a tag: a string of the document, or a tag. *)
Inductive Node {E : Bs4} :=
| NavigableString (s : string)
| Element (t : Tag).

(** What the example functions use of a tag besides [Bs4]: its [contents],
    the attribute access [tag.name] (the first descendant tag of that name,
    or [None]) and the call [tag()] (all descendant tags). *)
Class Bs4Tree (E : Bs4) := {
  tag_contents : Tag → list Node;
  tag_child : Tag → string → option Tag;
  tag_call : Tag → list Tag
}.

(** What [x.strip()] can be for a child [x]. *)
Inductive Value {E : Bs4} :=
| Str (s : string)
| ResultSet (l : list Tag).

Section Rest.
Context {E : Bs4} {T : Bs4Tree E}.

(** [__repr__(self)] *)
Definition repr (self : Scraper E) : string :=
  "Scraper(html_loaded=" +:+
  (match html_content self with
   | Some _ => "True"
   | None => "False"
   end) +:+ ")".

(** The first child of [course] is the string [s] of the document. *)
Definition starts_with_string (course : Tag) (s : string) : Prop :=
  ∃ rest, tag_contents course = NavigableString s :: rest.

(** [x.strip()]: on a string, the method of [str]; on a tag, the attribute
    [strip] is looked up as a child tag and the result is called. *)
Definition node_strip (x : Node) : completion Value :=
  match x with
  | NavigableString s => Done (Str (strip s))
  | Element t =>
      match tag_child t "strip" with
      | None => Aborted (Lib (TypeError "'NoneType' object is not callable"))
      | Some c => Done (ResultSet (tag_call c))
      end
  end.

(** [tag.contents[0].strip()] *)
Definition first_stripped (t : Tag) : completion Value :=
  match tag_contents t with
  | [] => Aborted (IndexError "list index out of range")
  | x :: _ => node_strip x
  end.

(** The loop of [scrape_flatiron_courses], [course_list] being the list
    built so far. *)
Fixpoint collect_courses (courses : list Tag) (course_list : list Value)
  : completion (list Value) :=
  match courses with
  | [] => Done course_list
  | course :: courses =>
      match first_stripped course with
      | Aborted e => Aborted e
      | Done course_text => collect_courses courses (course_list ++ [course_text])
      end
  end.

Definition courses_url : string := "https://flatironschool.com/our-courses/".
Definition courses_selector : string := ".heading-60-black.color-black.mb-20".
Definition heading_url : string := "https://flatironschool.com/".
Definition heading_selector : string := ".heading-financier".

(** [scrape_flatiron_courses()] *)
Definition scrape_flatiron_courses (n : Net) : completion (list Value) * Net :=
  let headers : gmap string string := {[ "user-agent" := "my-app/0.0.1" ]} in
  let '(html, n) := requests_get n courses_url headers in
  match html with
  | Raise e => (Aborted (Lib e), n)
  | Return html =>
      let doc := BeautifulSoup (text html) in
      match soup_select doc courses_selector with
      | Raise e => (Aborted (Lib e), n)
      | Return courses => (collect_courses courses [], n)
      end
  end.

(** [scrape_heading_text()] *)
Definition scrape_heading_text (n : Net) : completion Value * Net :=
  let headers : gmap string string := {[ "user-agent" := "my-app/0.0.1" ]} in
  let '(html, n) := requests_get n heading_url headers in
  match html with
  | Raise e => (Aborted (Lib e), n)
  | Return html =>
      let doc := BeautifulSoup (text html) in
      match soup_select doc heading_selector with
      | Raise e => (Aborted (Lib e), n)
      | Return heading =>
          match heading with
          | h :: _ =>
              match tag_contents h with
              | x :: _ => (node_strip x, n)
              | [] => (Done (Str ""), n)
              end
          | [] => (Done (Str ""), n)
          end
      end
  end.

(** The requests a sequence of calls hands to the client. *)
Definition request_of (c : call) : list Request :=
  match c with
  | LoadFromUrl url headers => [mkRequest url (default default_headers headers)]
  | _ => []
  end.

End Rest.

(** ** A second small engine, with nested tags and class lists *)

Module Site.

Inductive Elem :=
| mkElem (el_name : string) (el_classes : list string) (el_kids : list Kid)
with Kid :=
| KText (s : string)
| KElem (e : Elem).

Definition el_name (e : Elem) : string := let '(mkElem a _ _) := e in a.
Definition el_classes (e : Elem) : list string := let '(mkElem _ c _) := e in c.
Definition el_kids (e : Elem) : list Kid := let '(mkElem _ _ k) := e in k.

(** The tags below [e], in document order. *)
Fixpoint descendants (e : Elem) : list Elem :=
  match e with
  | mkElem _ _ kids =>
      (fix go (ks : list Kid) : list Elem :=
         match ks with
         | [] => []
         | KText _ :: ks => go ks
         | KElem c :: ks => c :: descendants c ++ go ks
         end) kids
  end.

(** The stripped, non-empty strings below [e], concatenated:
    [get_text(strip=True)]. *)
Fixpoint stripped_text (e : Elem) : string :=
  match e with
  | mkElem _ _ kids =>
      (fix go (ks : list Kid) : string :=
         match ks with
         | [] => ""
         | KText s :: ks => strip s +:+ go ks
         | KElem c :: ks => stripped_text c +:+ go ks
         end) kids
  end.

Definition all_tags (roots : list Elem) : list Elem :=
  concat ((λ r, r :: descendants r) <$> roots).

Definition newline : string := String (ascii_of_nat 10) "".

Definition courses_html : string :=
  "<div><h2 class='heading-60-black color-black mb-20'> Software Engineering" +:+ newline +:+
  "</h2><h2 class='heading-60-black color-black mb-20'>Data Science<br></h2></div>".

Definition software : Elem :=
  mkElem "h2" ["heading-60-black"; "color-black"; "mb-20"]
    [KText (" Software Engineering" +:+ newline)].

Definition data_science : Elem :=
  mkElem "h2" ["heading-60-black"; "color-black"; "mb-20"]
    [KText "Data Science"; KElem (mkElem "br" [] [])].

Definition courses_doc : list Elem :=
  [ mkElem "div" [] [ KElem software; KElem data_science ] ].

Definition hollow_html : string :=
  "<h2 class='heading-60-black color-black mb-20'>Design</h2><h2 class='heading-60-black color-black mb-20'></h2><h1 class='heading-financier'></h1>".

Definition design : Elem :=
  mkElem "h2" ["heading-60-black"; "color-black"; "mb-20"] [KText "Design"].

Definition hollow : Elem :=
  mkElem "h2" ["heading-60-black"; "color-black"; "mb-20"] [].

Definition hollow_doc : list Elem :=
  [ design; hollow; mkElem "h1" ["heading-financier"] [] ].

Definition heading_html : string :=
  "<h1 class='heading-financier'>  Change things </h1>".

Definition heading_doc : list Elem :=
  [ mkElem "h1" ["heading-financier"] [KText "  Change things "] ].

(** Knows the three pages above; any other markup has no tag. *)
Definition parse (markup : string) : list Elem :=
  if bool_decide (markup = courses_html) then courses_doc
  else if bool_decide (markup = hollow_html) then hollow_doc
  else if bool_decide (markup = heading_html) then heading_doc
  else [].

(** The class names of a selector [.a.b.c]. *)
Fixpoint split_dots (s : string) (word : string) : list string :=
  match s with
  | EmptyString => [word]
  | String c s' =>
      if bool_decide (c = "."%char) then word :: split_dots s' ""
      else split_dots s' (word +:+ String c "")
  end.

(** Selectors [.a.b.c] (every class is among the tag's) and [tag]. *)
Definition matches (selector : string) (e : Elem) : bool :=
  match selector with
  | String "."%char cs =>
      forallb (λ c, bool_decide (c ∈ el_classes e)) (split_dots cs "")
  | _ => bool_decide (el_name e = selector)
  end.

Definition named (tag_name : string) (e : Elem) : bool :=
  bool_decide (el_name e = tag_name).

Definition get (e : Elem) (name : string) : option AttrValue :=
  if bool_decide (name = "class")
  then match el_classes e with
       | [] => None
       | cs => Some (AttrList cs)
       end
  else None.

(** The empty selector is a syntax error; the others select. *)
Definition select_tags (d : list Elem) (s : string) : result (list Elem) :=
  if bool_decide (s = "")
  then Raise (EngineError "Expected a selector at position 0")
  else Return (List.filter (matches s) (all_tags d)).

#[export] Instance engine : Bs4 := {|
  Soup := list Elem;
  Tag := Elem;
  BeautifulSoup := parse;
  soup_bool := λ _, true;
  soup_select := select_tags;
  soup_select_one := λ d s, head <$> select_tags d s;
  soup_find_all := λ d t _, Return (List.filter (named t) (all_tags d));
  soup_find := λ d t _, Return (head (List.filter (named t) (all_tags d)));
  tag_bool := λ _, true;
  tag_get_text := stripped_text;
  tag_get := get
|}.

Definition node_of (k : Kid) : Node (E:=engine) :=
  match k with
  | KText s => NavigableString (E:=engine) s
  | KElem e => Element (E:=engine) e
  end.

Definition contents (e : Elem) : list (Node (E:=engine)) := node_of <$> el_kids e.

Definition child (e : Elem) (name : string) : option Elem :=
  head (List.filter (named name) (descendants e)).

#[export] Instance tree : Bs4Tree engine := Build_Bs4Tree engine contents child descendants.

(** A network that gives every request the same reply. *)
Definition always (r : Reply) : Net := mkNet (λ _ _, r) [].

Definition fresh : Scraper engine := mkScraper None None.

(** [Scraper().load_html(courses_html)] *)
Definition courses : Scraper engine := load_html fresh courses_html.

End Site.

(** ** How the engine selects *)

(** Beautiful Soup hands [select] and [select_one] to the soupsieve library,
    which compiles the selector and then walks the tags of the document in
    order.  [css_iselect] is the loop of its [CSSMatch.select(limit)]: every
    matching tag is yielded, and with a limit the loop stops once that many
    were. *)
Section Sieve.
Context {A : Type} (matching : A → bool).

Fixpoint css_iselect (lim : option nat) (children : list A) : list A :=
  match children with
  | [] => []
  | child :: children =>
      if matching child
      then
        match lim with
        | None => child :: css_iselect None children
        | Some k =>
            let k := k - 1 in
            if bool_decide (k < 1) then [child]
            else child :: css_iselect (Some k) children
        end
      else css_iselect lim children
  end.

(** [lim = None if limit < 1 else limit] *)
Definition css_select (limit : nat) (children : list A) : list A :=
  css_iselect (if bool_decide (limit < 1) then None else Some limit) children.

End Sieve.

(** What soupsieve works with: compiled selectors, the test of one tag
    against one, and the tags of a document in document order. *)
Class Soupsieve (E : Bs4) := {
  Matcher : Type;
  css_compile : string → result Matcher;
  css_match : Matcher → Tag → bool;
  soup_tags : Soup → list Tag
}.

Section SieveSelect.
Context {E : Bs4} {S : Soupsieve E}.

(** soupsieve's [select(selector, tag, limit)] *)
Definition sv_select (d : Soup) (selector : string) (limit : nat) : result (list Tag) :=
  m ← css_compile selector;
  Return (css_select (css_match m) limit (soup_tags d)).

(** soupsieve's [select_one]: [tags = select(tag, limit=1)], then
    [tags[0] if tags else None] *)
Definition sv_select_one (d : Soup) (selector : string) : result (option Tag) :=
  tags ← sv_select d selector 1;
  Return (match tags with
          | t :: _ => Some t
          | [] => None
          end).

End SieveSelect.

(** The two methods of the document are soupsieve's functions, [select]
    without a limit. *)
Class SoupsieveLaws (E : Bs4) (S : Soupsieve E) : Prop := {
  select_is_sieve : ∀ (d : Soup) (s : string), soup_select d s = sv_select d s 0;
  select_one_is_sieve : ∀ (d : Soup) (s : string), soup_select_one d s = sv_select_one d s
}.

(** An engine that runs the two loops on the pages of [Site]. *)
Module Sieve.

Definition compile (s : string) : result string :=
  if bool_decide (s = "")
  then Raise (EngineError "Expected a selector at position 0")
  else Return s.

Definition select_limit (d : list Site.Elem) (s : string) (limit : nat)
  : result (list Site.Elem) :=
  m ← compile s;
  Return (css_select (Site.matches m) limit (Site.all_tags d)).

Definition select_first (d : list Site.Elem) (s : string) : result (option Site.Elem) :=
  tags ← select_limit d s 1;
  Return (match tags with
          | t :: _ => Some t
          | [] => None
          end).

#[export] Instance engine : Bs4 := {|
  Soup := list Site.Elem;
  Tag := Site.Elem;
  BeautifulSoup := Site.parse;
  soup_bool := λ _, true;
  soup_select := λ d s, select_limit d s 0;
  soup_select_one := select_first;
  soup_find_all := λ d t _, Return (List.filter (Site.named t) (Site.all_tags d));
  soup_find := λ d t _, Return (head (List.filter (Site.named t) (Site.all_tags d)));
  tag_bool := λ _, true;
  tag_get_text := Site.stripped_text;
  tag_get := Site.get
|}.

#[export] Instance sieve : Soupsieve engine :=
  Build_Soupsieve engine string compile Site.matches Site.all_tags.

Definition fresh : Scraper engine := mkScraper None None.

(** [Scraper().load_html(courses_html)] *)
Definition courses : Scraper engine := load_html fresh Site.courses_html.

End Sieve.

(** * Properties *)

(** ** Joining, comprehensions, the stub engine *)

Lemma str_join_nil (sep : string) : str_join sep [] = "".
Proof. reflexivity. Qed.

Lemma str_join_one (sep x : string) : str_join sep [x] = x.
Proof. reflexivity. Qed.

Lemma str_join_cons (sep x y : string) (l : list string) :
  str_join sep (x :: y :: l) = x +:+ sep +:+ str_join sep (y :: l).
Proof. reflexivity. Qed.

Lemma attribute_not_global : "attribute" ∉ module_globals.
Proof. unfold module_globals. intros H. repeat (apply elem_of_cons in H as [H | H]; [discriminate H |]). by apply elem_of_nil in H. Qed.

Lemma comprehension_all_false {A B : Type} (cond : A → bool) (body : A → result B) (l : list A) :
  Forall (λ x, cond x = false) l → comprehension cond body l = Return [].
Proof.
  induction 1 as [| x l Hx _ IH]; simpl; [done |].
  by rewrite Hx.
Qed.

(** A comprehension whose body raises the same exception for every element
    raises it as soon as one element passes the filter. *)
Lemma comprehension_raises {A B : Type} (cond : A → bool) (body : A → result B)
  (e : exn) (l : list A) :
  (∀ x, body x = Raise e) →
  Exists (λ x, cond x = true) l →
  comprehension cond body l = Raise e.
Proof.
  intros Hbody. induction 1 as [x l Hx | x l _ IH]; simpl.
  - by rewrite Hx, Hbody.
  - rewrite IH. destruct (cond x); [by rewrite Hbody | done].
Qed.

#[export] Instance stub_laws : Bs4Laws Stub.engine.
Proof. split; done. Qed.

Section Unloaded.
Context {E : Bs4}.
Implicit Types (self : Scraper E) (d : Soup) (n : Net).
Implicit Types (selector attribute tag_name url : string).

(** ** Queries on an instance that was never loaded *)

(** C1: on an instance whose document is absent, [select], [select_one],
    [find_all], [find] (with keywords that name no parameter), [get_text] and
    [get_attribute] raise the not-loaded error; [title] returns the empty
    string, and so does [get_text_from_element] on an absent element.
    [get_all_attributes] raises the not-loaded error when called with the
    selector alone, which is all its signature takes; called with a selector
    and an attribute name it raises [TypeError] when the arguments are bound,
    not the not-loaded error. *)
Theorem empty_state_queries self selector attribute tag_name
  (kwargs : gmap string string) :
  soup self = None →
  kwargs_collide ["self"; "tag_name"] kwargs = false →
  select self selector = Raise NotLoadedError ∧
  select_one self selector = Raise NotLoadedError ∧
  find_all self tag_name kwargs = Raise NotLoadedError ∧
  find self tag_name kwargs = Raise NotLoadedError ∧
  get_text self selector = Raise NotLoadedError ∧
  get_attribute self selector attribute = Raise NotLoadedError ∧
  title self = Return "" ∧
  get_text_from_element (E:=E) None = "" ∧
  call_get_all_attributes self [selector] = Raise NotLoadedError ∧
  call_get_all_attributes self [selector; attribute] =
    Raise (TypeError "get_all_attributes() takes 2 positional arguments") ∧
  call_get_all_attributes self [selector; attribute] ≠ Raise NotLoadedError.
Proof.
  intros Hempty Hkwargs.
  unfold call_get_all_attributes, get_text, get_attribute, get_all_attributes, title,
    select, select_one, find_all, find.
  rewrite Hempty, Hkwargs. repeat split. discriminate.
Qed.

End Unloaded.

Lemma empty_state_queries_witness :
  soup Stub.fresh = None ∧
  select Stub.fresh ".heading-financier" = Raise NotLoadedError ∧
  find_all Stub.fresh "li" {[ "id" := "items" ]} = Raise NotLoadedError ∧
  title Stub.fresh = Return "" ∧
  call_get_all_attributes Stub.fresh ["li"; "id"] =
    Raise (TypeError "get_all_attributes() takes 2 positional arguments").
Proof.
  pose proof (empty_state_queries Stub.fresh ".heading-financier" "id" "li"
                {[ "id" := "items" ]} eq_refl eq_refl) as H.
  split; [reflexivity |]. repeat (split; [apply H |]). apply H.
Defined.

(** ** Queries on a loaded instance *)

Section Queries.
Context {E : Bs4}.
Implicit Types (self : Scraper E) (d : Soup) (el : Tag) (els : list Tag).
Implicit Types (selector attribute : string).

Lemma select_loaded self d selector :
  soup self = Some d → select self selector = soup_select d selector.
Proof. intros H. unfold select. by rewrite H. Qed.

Lemma select_one_loaded self d selector :
  soup self = Some d → select_one self selector = soup_select_one d selector.
Proof. intros H. unfold select_one. by rewrite H. Qed.

Lemma get_text_of_select self selector :
  get_text self selector =
  (λ els, str_join " " (tag_get_text <$> els)) <$> select self selector.
Proof. unfold get_text. by destruct (select self selector). Qed.

(** C7: on a loaded instance [select] is the engine's selection, and
    [get_text] is the texts of the selected elements, in the order [select]
    gives them, joined with one space; a selector that matches nothing gives
    the empty list and the empty string. *)
Theorem get_text_joins self d selector :
  soup self = Some d →
  select self selector = soup_select d selector ∧
  (∀ els, soup_select d selector = Return els →
     get_text self selector = Return (str_join " " (tag_get_text <$> els))) ∧
  (∀ el1 el2 els, soup_select d selector = Return (el1 :: el2 :: els) →
     get_text self selector =
     Return (tag_get_text el1 +:+ " " +:+ str_join " " (tag_get_text <$> el2 :: els))) ∧
  (soup_select d selector = Return [] →
     select self selector = Return [] ∧ get_text self selector = Return "").
Proof.
  intros Hd. pose proof (select_loaded self d selector Hd) as Hsel.
  split; [done |].
  assert (∀ els, soup_select d selector = Return els →
    get_text self selector = Return (str_join " " (tag_get_text <$> els))) as Hjoin.
  { intros els Hels. by rewrite get_text_of_select, Hsel, Hels. }
  split; [done |]. split.
  - intros el1 el2 els Hels. by rewrite (Hjoin _ Hels).
  - intros Hnil. split; [congruence |]. by rewrite (Hjoin _ Hnil).
Qed.

Section WithLaws.
Context {L : Bs4Laws E}.

Lemma select_one_head self selector :
  select_one self selector = head <$> select self selector.
Proof.
  unfold select_one, select. destruct (soup self); [apply select_one_first | done].
Qed.

Lemma get_attribute_of_select_one self selector attribute :
  get_attribute self selector attribute =
  (λ element, element ≫= λ el, tag_get el attribute) <$> select_one self selector.
Proof.
  unfold get_attribute.
  destruct (select_one self selector) as [[el |] | e]; simpl; [| done | done].
  by rewrite tag_truthy.
Qed.

(** C3, as the code has it: [get_attribute] is the attribute of the element
    [select_one] gives; it is absent when nothing matches, and it is absent
    exactly when nothing matches or the first match does not carry the
    attribute. *)
Theorem get_attribute_first_match self d selector attribute :
  soup self = Some d →
  (∀ el, select_one self selector = Return (Some el) →
     get_attribute self selector attribute = Return (tag_get el attribute)) ∧
  (select_one self selector = Return None →
     get_attribute self selector attribute = Return None) ∧
  (get_attribute self selector attribute = Return None ↔
     select_one self selector = Return None ∨
     ∃ el, select_one self selector = Return (Some el) ∧ tag_get el attribute = None).
Proof.
  intros _. rewrite get_attribute_of_select_one.
  destruct (select_one self selector) as [[el |] | e]; simpl.
  - split; [intros ? [= <-]; done |]. split; [done |]. split.
    + intros [= Hnone]. right. by exists el.
    + intros [[=] | (el' & [= <-] & ->)]. done.
  - split; [done |]. split; [done |]. split; [by left | done].
  - split; [done |]. split; [done |]. split; [done |].
    intros [[=] | (el & [=] & _)].
Qed.

End WithLaws.

(** The body of the comprehension in [get_all_attributes] cannot read the
    name [attribute]: once [select] has given an element that is truthy, the
    call raises [NameError]. *)
Lemma get_all_attributes_unbound self selector els :
  select self selector = Return els →
  Exists (λ el, tag_bool el = true) els →
  get_all_attributes self selector = Raise (NameError "attribute").
Proof.
  intros Hsel Hex. unfold get_all_attributes. rewrite Hsel. simpl.
  apply comprehension_raises; [| done].
  intros el. unfold load_name. by rewrite lookup_singleton_ne.
Qed.

Lemma get_all_attributes_no_match self selector :
  select self selector = Return [] →
  get_all_attributes self selector = Return [].
Proof. intros Hsel. unfold get_all_attributes. by rewrite Hsel. Qed.

Lemma call_get_all_attributes_two self selector attribute :
  ∃ msg, call_get_all_attributes self [selector; attribute] = Raise (TypeError msg).
Proof. by eexists. Qed.

End Queries.

(** ** [select] and [select_one] *)

Section SieveLoop.
Context {A : Type} (matching : A → bool).

Lemma css_iselect_all (l : list A) : css_iselect matching None l = List.filter matching l.
Proof. induction l as [| x l IH]; simpl; [done |]. destruct (matching x); by rewrite IH. Qed.

(** With a limit the loop gives the first matches, as many as the limit. *)
Lemma css_iselect_take (k : nat) (l : list A) :
  css_iselect matching (Some (S k)) l = take (S k) (List.filter matching l).
Proof.
  revert k. induction l as [| x l IH]; intros k; simpl; [done |].
  destruct (matching x); [| apply IH].
  rewrite Nat.sub_0_r. case_bool_decide as Hk.
  - assert (k = 0) as -> by lia. reflexivity.
  - destruct k as [| k]; [lia |]. by rewrite IH.
Qed.

Lemma css_select_first (l : list A) :
  match css_select matching 1 l with
  | t :: _ => Some t
  | [] => None
  end = head (css_select matching 0 l).
Proof.
  unfold css_select. simpl. rewrite css_iselect_take, css_iselect_all.
  by destruct (List.filter matching l).
Qed.

End SieveLoop.

Section Consistent.
Context {E : Bs4} {S : Soupsieve E} {L : SoupsieveLaws E S}.
Implicit Types (self : Scraper E) (d : Soup) (el : Tag) (els : list Tag).

Lemma sv_select_one_head d (selector : string) :
  sv_select_one d selector = head <$> sv_select d selector 0.
Proof.
  unfold sv_select_one, sv_select.
  destruct (css_compile selector) as [m | e]; simpl; [| done].
  by rewrite css_select_first.
Qed.

(** C8: [select_one] is the head of [select]: the first selected element
    when there is one, and absent exactly when [select] gives the empty
    list.  The two methods call the engine separately; they agree because
    the engine's [select_one] runs the loop of [select] with a limit of one
    and takes what it yields. *)
Theorem select_one_consistent self d (selector : string) :
  soup self = Some d →
  select_one self selector = head <$> select self selector ∧
  (∀ el els, select self selector = Return (el :: els) →
     select_one self selector = Return (Some el)) ∧
  (select_one self selector = Return None ↔ select self selector = Return []).
Proof.
  intros Hd.
  assert (select_one self selector = head <$> select self selector) as Hhead.
  { rewrite (select_one_loaded self d), (select_loaded self d) by done.
    by rewrite select_one_is_sieve, select_is_sieve, sv_select_one_head. }
  split; [done |]. split.
  - intros el els Hsel. by rewrite Hhead, Hsel.
  - rewrite Hhead. destruct (select self selector) as [[| el els] | e]; simpl; split; congruence.
Qed.

End Consistent.

#[export] Instance sieve_laws : SoupsieveLaws Sieve.engine Sieve.sieve.
Proof. split; done. Qed.

Lemma get_text_joins_witness :
  soup Stub.sample = Some Stub.sample_doc ∧
  get_text Stub.sample "li" = Return "Item 1 Item 2" ∧
  get_text Stub.sample "table" = Return "".
Proof.
  pose proof (get_text_joins Stub.sample Stub.sample_doc "li" eq_refl) as (_ & Hli & _).
  pose proof (get_text_joins Stub.sample Stub.sample_doc "table" eq_refl) as (_ & _ & _ & Hnone).
  split; [reflexivity |]. split.
  - apply (Hli (List.filter (Stub.matches "li") Stub.sample_doc)). reflexivity.
  - apply Hnone. reflexivity.
Defined.

Lemma select_one_consistent_witness :
  soup Sieve.courses = Some Site.courses_doc ∧
  select Sieve.courses "h2" = Return [Site.software; Site.data_science] ∧
  select_one Sieve.courses "h2" = Return (Some Site.software) ∧
  (select_one Sieve.courses "h3" = Return None ↔ select Sieve.courses "h3" = Return []).
Proof.
  pose proof (select_one_consistent (S:=Sieve.sieve) Sieve.courses
                Site.courses_doc "h2" eq_refl)
    as (_ & Hfirst & _).
  pose proof (select_one_consistent (S:=Sieve.sieve) Sieve.courses
                Site.courses_doc "h3" eq_refl)
    as (_ & _ & Hnone).
  split; [reflexivity |]. split; [reflexivity |]. split; [| exact Hnone].
  apply (Hfirst Site.software [Site.data_science]). reflexivity.
Defined.

(** C3, as the claim has it, fails: [li] matches two elements of the sample
    page, none of them has an [id], and [get_attribute] returns absent. *)
Lemma get_attribute_absent_with_match :
  select Stub.sample "li" =
    Return [Stub.mkElem "li" [] "Item 1"; Stub.mkElem "li" [] "Item 2"] ∧
  get_attribute Stub.sample "li" "id" = Return None ∧
  ¬ (get_attribute Stub.sample "li" "id" = Return None ↔
     select Stub.sample "li" = Return []).
Proof.
  split; [reflexivity |]. split; [reflexivity |].
  intros [Hcontra _]. specialize (Hcontra eq_refl). discriminate Hcontra.
Qed.

Lemma get_attribute_first_match_witness :
  soup Stub.sample = Some Stub.sample_doc ∧
  get_attribute Stub.sample "#items" "id" = Return (Some (AttrStr "items")) ∧
  get_attribute Stub.sample "table" "id" = Return None.
Proof.
  pose proof (get_attribute_first_match Stub.sample Stub.sample_doc "#items" "id" eq_refl)
    as (Hsome & _).
  pose proof (get_attribute_first_match Stub.sample Stub.sample_doc "table" "id" eq_refl)
    as (_ & Hnone & _).
  split; [reflexivity |]. split.
  - apply (Hsome (Stub.mkElem "ul" [("id", "items")] "Item 1Item 2")). reflexivity.
  - apply Hnone. reflexivity.
Defined.

(** C2: on the sample page, where [#items] matches the list, the call with
    the selector alone raises [NameError] for the name [attribute], and the
    call with a selector and an attribute name raises [TypeError]; the values
    the documentation promises are those of [tag_get] on the selection. *)
Theorem get_all_attributes_sample :
  get_all_attributes Stub.sample "#items" = Raise (NameError "attribute") ∧
  call_get_all_attributes Stub.sample ["#items"; "id"] =
    Raise (TypeError "get_all_attributes() takes 2 positional arguments") ∧
  (λ els : list Stub.Elem, (λ el, tag_get (Bs4:=Stub.engine) el "id") <$> els)
    <$> select Stub.sample "#items" =
    Return [Some (AttrStr "items")] ∧
  get_all_attributes Stub.sample "table" = Return [].
Proof. repeat split. Qed.

(** ** Loading *)

Section Loading.
Context {E : Bs4}.
Implicit Types (self : Scraper E) (n : Net) (url : string).
Implicit Types (headers : option (gmap string string)).

(** The request [load_from_url] hands to the client. *)
Lemma load_from_url_cases self url headers n :
  load_from_url self url headers n =
  let rq := mkRequest url (default default_headers headers) in
  let n' := mkNet (respond n) (sent n ++ [rq]) in
  match respond n (sent n) rq with
  | Failed why => mkOutcome (Some (RequestException why)) self n'
  | Answered r =>
      if bool_decide (400 ≤ status_code r < 600)%Z
      then mkOutcome (Some (HTTPError (status_code r))) self n'
      else mkOutcome None (mkScraper (Some (BeautifulSoup (text r))) (Some (text r))) n'
  end.
Proof.
  unfold load_from_url, requests_get, raise_for_status.
  destruct headers as [h |]; simpl;
    (destruct (respond n (sent n) _) as [r | why]; [case_bool_decide |]; reflexivity).
Qed.

(** C4, as the code has it: a transport failure leaves as [FetchError], a
    response with a status from 400 to 599 leaves as [HttpStatusError], and in
    both cases the fields of the instance are what they were; a response with
    any other status is loaded. *)
Theorem load_from_url_failures self url headers n :
  match respond n (sent n) (mkRequest url (default default_headers headers)) with
  | Failed why =>
      raised (load_from_url self url headers n) = Some (FetchError why) ∧
      object (load_from_url self url headers n) = self
  | Answered r =>
      ((400 ≤ status_code r < 600)%Z →
         raised (load_from_url self url headers n) = Some (HttpStatusError (status_code r)) ∧
         object (load_from_url self url headers n) = self) ∧
      (¬ (400 ≤ status_code r < 600)%Z →
         raised (load_from_url self url headers n) = None ∧
         html_content (object (load_from_url self url headers n)) = Some (text r))
  end.
Proof.
  rewrite load_from_url_cases. simpl.
  destruct (respond n (sent n) _) as [r | why]; [| done].
  case_bool_decide; split; done.
Qed.

Lemma load_from_url_fields_agree self url headers n :
  fields_agree self → fields_agree (object (load_from_url self url headers n)).
Proof.
  intros Hself. rewrite load_from_url_cases. simpl.
  destruct (respond n (sent n) _) as [r | why]; [case_bool_decide |]; done.
Qed.

Lemma step_fields_agree self (c : call) n :
  fields_agree self → fields_agree (object (step self c n)).
Proof.
  intros Hself. destruct c; simpl; try done.
  by apply load_from_url_fields_agree.
Qed.

Lemma run_fields_agree (calls : list call) : ∀ self n,
  fields_agree self → fields_agree (run self n calls).1.1.
Proof.
  induction calls as [| c calls IH]; intros self n Hself; simpl; [done |].
  specialize (IH (object (step self c n)) (network (step self c n))
    (step_fields_agree self c n Hself)).
  by destruct (run (object (step self c n)) (network (step self c n)) calls) as [[s' n'] k].
Qed.

Lemma init_fields_agree (url : option string) n (self : Scraper E) n' :
  init url n = (Return self, n') → fields_agree self.
Proof.
  unfold init. destruct (str_bool url); [| by intros [= <- _]].
  pose proof (load_from_url_fields_agree (mkScraper None None) (default "" url) None n eq_refl) as H.
  destruct (raised _); [done |]. by intros [= <- _].
Qed.

(** C5: [load_html] sets both fields from the markup it is given, whatever
    they were; [load_from_url], when it returns, sets both from the body of
    the response, and when it raises leaves both as they were; loading twice
    gives the instance a first load of the second markup alone gives, so
    every query answers the same on both; and at any point of the life of an
    instance the document is the parse of the stored markup. *)
Theorem loads_replace_both_fields self (html1 html2 : string) url headers n
  (url0 : option string) (calls : list call) :
  load_html self html2 = mkScraper (Some (BeautifulSoup html2)) (Some html2) ∧
  match raised (load_from_url self url headers n) with
  | None =>
      ∃ r, respond n (sent n) (mkRequest url (default default_headers headers)) = Answered r ∧
           object (load_from_url self url headers n) =
           mkScraper (Some (BeautifulSoup (text r))) (Some (text r))
  | Some _ => object (load_from_url self url headers n) = self
  end ∧
  load_html (load_html self html1) html2 = load_html (mkScraper None None) html2 ∧
  (∀ (X : Type) (query : Scraper E → X),
     query (load_html (load_html self html1) html2) =
     query (load_html (mkScraper None None) html2)) ∧
  match lifetime url0 n calls with
  | Some (final, _) => fields_agree final
  | None => True
  end.
Proof.
  split; [done |]. split.
  { rewrite load_from_url_cases. simpl.
    destruct (respond n (sent n) _) as [r | why]; [case_bool_decide |]; simpl; eauto. }
  split; [done |]. split; [done |].
  unfold lifetime. destruct (init url0 n) as [[s0 | e] n0] eqn:Hinit; [| done].
  pose proof (run_fields_agree calls s0 n0 (init_fields_agree _ _ _ _ Hinit)) as Hrun.
  by destruct (run s0 n0 calls) as [[s' n'] k].
Qed.

(** C9, as the code has it: the constructor loads from a URL that is a
    non-empty string, with no headers argument, and returns what that load
    leaves; with no URL, or the empty string, it sends nothing and both
    fields stay absent.  A load without a headers argument asks for the URL
    with the single header [user-agent: my-app/0.0.1]; a load with headers
    asks with those. *)
Theorem init_loads_nonempty_url (url0 : option string) self url
  (h : gmap string string) n :
  init url0 n =
    match url0 with
    | Some (String a u) =>
        let o := load_from_url (mkScraper None None) (String a u) None n in
        (match raised o with
         | Some e => Raise e
         | None => Return (object o)
         end, network o)
    | _ => (Return (mkScraper None None), n)
    end ∧
  sent (network (load_from_url self url None n)) =
    (sent n ++ [mkRequest url {[ "user-agent" := "my-app/0.0.1" ]}])%list ∧
  sent (network (load_from_url self url (Some h) n)) = (sent n ++ [mkRequest url h])%list.
Proof.
  split; [| split].
  - unfold init. destruct url0 as [[| a u] |]; simpl; [done | | done].
    by destruct (raised _).
  - rewrite load_from_url_cases. simpl.
    destruct (respond n (sent n) _) as [r | why]; [case_bool_decide |]; done.
  - rewrite load_from_url_cases. simpl.
    destruct (respond n (sent n) _) as [r | why]; [case_bool_decide |]; done.
Qed.

(** C10: constructed with the empty string, the instance has both fields
    absent and the network is as it was: nothing was sent. *)
Theorem init_empty_string n :
  init (E:=E) (Some "") n = (Return (mkScraper None None), n) ∧
  sent (init (E:=E) (Some "") n).2 = sent n.
Proof. done. Qed.

End Loading.

(** ** Empty and loaded *)

Section Lifecycle.
Context {E : Bs4}.
Implicit Types (self : Scraper E) (n : Net) (c : call).

Lemma load_from_url_returned self (url : string) headers n :
  returned (load_from_url self url headers n) = true →
  soup (object (load_from_url self url headers n)) ≠ None.
Proof.
  rewrite load_from_url_cases. simpl.
  destruct (respond n (sent n) _) as [r | why]; [case_bool_decide |]; done.
Qed.

Lemma load_from_url_raised self (url : string) headers n :
  returned (load_from_url self url headers n) = false →
  object (load_from_url self url headers n) = self.
Proof.
  rewrite load_from_url_cases. simpl.
  destruct (respond n (sent n) _) as [r | why]; [case_bool_decide |]; done.
Qed.

Lemma step_completed_loaded self c n :
  load_completed c (step self c n) = true → soup (object (step self c n)) ≠ None.
Proof.
  unfold load_completed. destruct c; simpl; try done.
  apply load_from_url_returned.
Qed.

Lemma step_not_completed self c n :
  load_completed c (step self c n) = false → object (step self c n) = self.
Proof.
  unfold load_completed. destruct c; simpl; try done.
  apply load_from_url_raised.
Qed.

Lemma run_soup (calls : list call) : ∀ self n,
  soup (run self n calls).1.1 = None ↔ soup self = None ∧ (run self n calls).2 = 0.
Proof.
  induction calls as [| c calls IH]; intros self n; simpl.
  { split; [done | by intros [Hs _]]. }
  specialize (IH (object (step self c n)) (network (step self c n))).
  destruct (run (object (step self c n)) (network (step self c n)) calls) as [[s' n'] k].
  simpl in *.
  destruct (load_completed c (step self c n)) eqn:Hc.
  - pose proof (step_completed_loaded self c n Hc) as Hloaded.
    split; [intros Hs; apply IH in Hs as [Hs _]; done | intros [_ Hk]; lia].
  - by rewrite (step_not_completed self c n Hc) in IH.
Qed.

Lemma init_soup (url : option string) n self n' :
  init url n = (Return self, n') → soup self = None ↔ str_bool url = false.
Proof.
  unfold init. destruct (str_bool url); [| by intros [= <- _]].
  pose proof (load_from_url_returned (mkScraper None None) (default "" url) None n) as Hret.
  unfold returned in Hret.
  destruct (raised _); [done |]. intros [= <- _]. split; [intros Hs | done].
  by destruct (Hret eq_refl).
Qed.

(** C6: after a construction that returned and any calls, the document is
    absent exactly when no load returned, the constructor's counted.  A call
    never makes a present document absent; a call that leaves the instance
    other than it was is a load that returned, and a load that returned
    leaves a document. *)
Theorem document_absent_iff_no_load (url0 : option string) n (calls : list call)
  self c n1 :
  match lifetime url0 n calls with
  | Some (final, loads) => soup final = None ↔ loads = 0
  | None => True
  end ∧
  (soup self ≠ None → soup (object (step self c n1)) ≠ None) ∧
  (object (step self c n1) ≠ self → load_completed c (step self c n1) = true) ∧
  (load_completed c (step self c n1) = true → soup (object (step self c n1)) ≠ None).
Proof.
  split; [| split; [| split]].
  - unfold lifetime. destruct (init url0 n) as [[s0 | e] n0] eqn:Hinit; [| done].
    pose proof (run_soup calls s0 n0) as Hrun.
    pose proof (init_soup url0 n s0 n0 Hinit) as Hs0.
    destruct (run s0 n0 calls) as [[s' n'] k]. simpl in Hrun.
    rewrite Hrun, Hs0. destruct (str_bool url0); simpl; split.
    + by intros [[=] _].
    + lia.
    + by intros [_ ->].
    + by intros ->.
  - intros Hloaded. destruct (load_completed c (step self c n1)) eqn:Hc.
    + by apply step_completed_loaded.
    + by rewrite (step_not_completed self c n1 Hc).
  - intros Hchanged. destruct (load_completed c (step self c n1)) eqn:Hc; [done |].
    by rewrite (step_not_completed self c n1 Hc) in Hchanged.
  - apply step_completed_loaded.
Qed.

End Lifecycle.

(** ** The class on the sample pages *)

(** C4, as the claim has it, fails: a 304 response is not a 2xx response,
    [load_from_url] returns, and the body is stored as the markup. *)
Lemma load_from_url_304_is_loaded :
  is_2xx 304 = false ∧
  raised (load_from_url Stub.fresh "http://example.test/" None
            (Stub.always (Answered (mkResponse 304 "stale")))) = None ∧
  html_content (object (load_from_url Stub.fresh "http://example.test/" None
            (Stub.always (Answered (mkResponse 304 "stale"))))) = Some "stale".
Proof. repeat split. Qed.

(** C9, as the claim has it, fails: the empty string is a URL argument that
    is present; the constructor returns and hands nothing to the client,
    where [load_from_url] on it hands one request and here raises. *)
Lemma init_present_url_not_loaded :
  init (Some "") (Stub.always (Failed InvalidURL)) =
    (Return Stub.fresh, Stub.always (Failed InvalidURL)) ∧
  sent (Stub.always (Failed InvalidURL)) = [] ∧
  raised (load_from_url Stub.fresh "" None (Stub.always (Failed InvalidURL))) =
    Some (FetchError InvalidURL) ∧
  sent (network (load_from_url Stub.fresh "" None (Stub.always (Failed InvalidURL)))) =
    [mkRequest "" {[ "user-agent" := "my-app/0.0.1" ]}].
Proof. repeat split. Qed.

Example load_from_url_404 :
  raised (load_from_url Stub.sample "http://example.test/missing" None
            (Stub.always (Answered (mkResponse 404 "Not Found")))) =
    Some (HttpStatusError 404) ∧
  object (load_from_url Stub.sample "http://example.test/missing" None
            (Stub.always (Answered (mkResponse 404 "Not Found")))) = Stub.sample.
Proof. repeat split. Qed.

Example init_with_url :
  (init (Some "http://example.test/") (Stub.always (Answered (mkResponse 200 Stub.sample_html)))).1
  = Return Stub.sample.
Proof. reflexivity. Qed.

Example reload_discards :
  get_text (load_html Stub.sample Stub.other_html) "li" = Return "" ∧
  get_text (load_html Stub.sample Stub.other_html) "p" = Return "Second page" ∧
  title (load_html Stub.sample Stub.other_html) = Return "".
Proof. repeat split. Qed.

Example lifetime_counts :
  lifetime None (Stub.always (Failed Timeout))
    [Select "li"; LoadFromUrl "http://example.test/" None; LoadHtml Stub.other_html; Title]
  = Some (load_html Stub.fresh Stub.other_html, 1).
Proof. reflexivity. Qed.

(** * The rest of the class *)

Lemma comprehension_returns_nil {A B : Type} (cond : A → bool) (body : A → result B)
  (e : exn) (l : list A) (r : list B) :
  (∀ x, body x = Raise e) →
  comprehension cond body l = Return r →
  r = [] ∧ Forall (λ x, cond x = false) l.
Proof.
  intros Hbody. induction l as [| x l IH]; simpl.
  - by intros [= <-].
  - destruct (cond x) eqn:Hx; [by rewrite Hbody |].
    intros Hr. destruct (IH Hr) as [-> Hl]. split; [done |]. by constructor.
Qed.

#[export] Instance site_laws : Bs4Laws Site.engine.
Proof. split; done. Qed.

Section MoreQueries.
Context {E : Bs4}.
Implicit Types (self : Scraper E) (d : Soup) (n : Net).
Implicit Types (selector attribute : string).

(** X7: [get_all_attributes] never returns a list with an element: when it
    returns, the list is empty and [select] gave no truthy element. *)
Theorem get_all_attributes_returns_empty self selector
  (l : list (option AttrValue)) :
  get_all_attributes self selector = Return l →
  l = [] ∧
  ∃ els, select self selector = Return els ∧ Forall (λ el, tag_bool el = false) els.
Proof.
  unfold get_all_attributes. destruct (select self selector) as [els | e]; simpl; [| done].
  intros Hl. apply comprehension_returns_nil with (e := NameError "attribute") in Hl.
  - destruct Hl as [-> Hels]. eauto.
  - intros el. unfold load_name. by rewrite lookup_singleton_ne.
Qed.

Section WithLaws.
Context {L : Bs4Laws E}.

(** X1: on a loaded instance, [title] is [get_text_from_element] of
    [find('title')]: the text of the first title tag, the empty string when
    there is none, and the engine's exception when [find] raises. *)
Theorem title_of_find self d :
  soup self = Some d →
  title self = get_text_from_element <$> find self "title" ∅.
Proof.
  intros Hd. unfold title, find. rewrite Hd, soup_truthy.
  destruct (soup_find d "title" ∅) as [[t |] | e]; simpl; [| done | done].
  by rewrite tag_truthy.
Qed.

(** X2: in any state, [get_attribute] is the attribute of the first element
    of [select], absent when [select] gives none, and raises what [select]
    raises. *)
Theorem get_attribute_of_select self selector attribute :
  get_attribute self selector attribute =
  (λ els : list Tag, head els ≫= λ el, tag_get el attribute) <$> select self selector.
Proof.
  rewrite get_attribute_of_select_one, select_one_head.
  by destruct (select self selector) as [[| el els] | e].
Qed.

(** X3: an exception of the engine's selection leaves every selector method
    unchanged: [select], [select_one], [get_text], [get_attribute] and
    [get_all_attributes] all raise it. *)
Theorem engine_error_propagates self d selector attribute (e : exn) :
  soup self = Some d →
  soup_select d selector = Raise e →
  select self selector = Raise e ∧
  select_one self selector = Raise e ∧
  get_text self selector = Raise e ∧
  get_attribute self selector attribute = Raise e ∧
  get_all_attributes self selector = Raise e.
Proof.
  intros Hd He.
  assert (select self selector = Raise e) as Hsel by by rewrite (select_loaded self d).
  assert (select_one self selector = Raise e) as Hone by by rewrite select_one_head, Hsel.
  split; [done |]. split; [done |]. split; [| split].
  - by rewrite get_text_of_select, Hsel.
  - by rewrite get_attribute_of_select_one, Hone.
  - unfold get_all_attributes. by rewrite Hsel.
Qed.

End WithLaws.

(** ** Requests, construction, [__repr__] *)

Lemma step_network self (c : call) n :
  network (step self c n) = mkNet (respond n) (sent n ++ request_of c).
Proof.
  destruct c; simpl; try (destruct n; simpl; by rewrite app_nil_r).
  rewrite load_from_url_cases. simpl.
  destruct (respond n (sent n) _) as [r | why]; [case_bool_decide |]; done.
Qed.

(** X4: over any sequence of calls, the requests handed to the client are
    those before, followed by one per [load_from_url] call, in order, for
    the URL and headers of the call (the default headers when none are
    given), whether the load returned or raised; no other method sends. *)
Theorem run_sends_one_per_url_load (calls : list call) self n :
  sent (run self n calls).1.2 = (sent n ++ (calls ≫= request_of))%list ∧
  respond (run self n calls).1.2 = respond n.
Proof.
  revert self n. induction calls as [| c calls IH]; intros self n; simpl.
  - by rewrite app_nil_r.
  - specialize (IH (object (step self c n)) (network (step self c n))).
    destruct (run (object (step self c n)) (network (step self c n)) calls) as [[s' n'] k].
    simpl in *. rewrite step_network in IH. simpl in IH.
    destruct IH as [-> ->]. by rewrite <- app_assoc.
Qed.

(** X6: the constructor returns an instance without a document exactly when
    the URL is absent or empty, so an instance built from a URL that is not
    empty always has its document; and the constructor raises only for a URL
    that is not empty. *)
Theorem init_loaded_or_raised (url : option string) n :
  match (init (E:=E) url n).1 with
  | Return self => soup self = None ↔ str_bool url = false
  | Raise e => str_bool url = true
  end.
Proof.
  destruct (init url n) as [[self | e] n'] eqn:Hinit; simpl.
  - by apply (init_soup url n self n').
  - revert Hinit. unfold init. by destruct (str_bool url).
Qed.

Lemma lifetime_absent (url0 : option string) n (calls : list call) self (loads : nat) :
  lifetime url0 n calls = Some (self, loads) →
  (soup self = None ↔ loads = 0) ∧ fields_agree self.
Proof.
  unfold lifetime. destruct (init url0 n) as [[s0 | e] n0] eqn:Hinit; [| done].
  pose proof (run_soup calls s0 n0) as Hrun.
  pose proof (init_soup url0 n s0 n0 Hinit) as Hs0.
  pose proof (run_fields_agree calls s0 n0 (init_fields_agree _ _ _ _ Hinit)) as Hagree.
  destruct (run s0 n0 calls) as [[s' n'] k]. simpl in *.
  intros [= <- <-]. split; [| done].
  rewrite Hrun, Hs0. destruct (str_bool url0); simpl; split.
  - by intros [[=] _].
  - lia.
  - by intros [_ ->].
  - by intros ->.
Qed.

(** X5: at any point of the life of an instance, a present document makes
    [repr] say [html_loaded=True]; and when [repr] says [html_loaded=False]
    no load has returned, the document is absent and the selector methods
    raise the not-loaded error. *)
Theorem repr_tells_loaded (url0 : option string) n (calls : list call) self
  (loads : nat) selector :
  lifetime url0 n calls = Some (self, loads) →
  (soup self ≠ None → repr self = "Scraper(html_loaded=True)") ∧
  (repr self = "Scraper(html_loaded=False)" →
     loads = 0 ∧ soup self = None ∧ select self selector = Raise NotLoadedError).
Proof.
  intros Hlife. destruct (lifetime_absent _ _ _ _ _ Hlife) as [Hloads Hagree].
  rewrite <- Hloads. unfold fields_agree in Hagree. unfold repr, select.
  rewrite Hagree. destruct (html_content self) as [h |]; simpl; repeat split; done.
Qed.

End MoreQueries.

Lemma get_all_attributes_returns_empty_witness :
  get_all_attributes Stub.sample "table" = Return [] ∧
  ∃ els, select Stub.sample "table" = Return els ∧
         Forall (λ el, tag_bool el = false) els.
Proof.
  split; [reflexivity |].
  apply (get_all_attributes_returns_empty Stub.sample "table" [] eq_refl).
Defined.

Lemma title_of_find_witness :
  soup Stub.sample = Some Stub.sample_doc ∧
  title Stub.sample = Return "Test Page" ∧
  title (load_html Stub.sample Stub.other_html) = Return "".
Proof.
  split; [reflexivity |]. split.
  - rewrite (title_of_find Stub.sample Stub.sample_doc eq_refl). reflexivity.
  - rewrite (title_of_find (load_html Stub.sample Stub.other_html) Stub.other_doc eq_refl).
    reflexivity.
Defined.

Lemma get_attribute_of_select_witness :
  get_attribute Site.courses "h2" "class" =
    Return (Some (AttrList ["heading-60-black"; "color-black"; "mb-20"])) ∧
  get_attribute Site.courses "h3" "class" = Return None ∧
  get_attribute Site.fresh "h2" "class" = Raise NotLoadedError.
Proof.
  split; [| split].
  - rewrite (get_attribute_of_select Site.courses "h2" "class"). reflexivity.
  - rewrite (get_attribute_of_select Site.courses "h3" "class"). reflexivity.
  - rewrite (get_attribute_of_select Site.fresh "h2" "class"). reflexivity.
Defined.

Lemma engine_error_propagates_witness :
  soup Site.courses = Some Site.courses_doc ∧
  soup_select (Bs4:=Site.engine) Site.courses_doc "" =
    Raise (EngineError "Expected a selector at position 0") ∧
  get_text Site.courses "" = Raise (EngineError "Expected a selector at position 0") ∧
  get_attribute Site.courses "" "class" =
    Raise (EngineError "Expected a selector at position 0").
Proof.
  pose proof (engine_error_propagates Site.courses Site.courses_doc "" "class"
                (EngineError "Expected a selector at position 0") eq_refl eq_refl)
    as (_ & _ & Htext & Hattr & _).
  split; [reflexivity |]. split; [reflexivity |]. split; [exact Htext | exact Hattr].
Defined.

Lemma repr_tells_loaded_witness :
  lifetime None (Stub.always (Failed Timeout))
    [LoadFromUrl "http://example.test/" None; LoadHtml Stub.other_html]
  = Some (load_html Stub.fresh Stub.other_html, 1) ∧
  repr (load_html Stub.fresh Stub.other_html) = "Scraper(html_loaded=True)" ∧
  lifetime None (Stub.always (Failed Timeout)) [LoadFromUrl "http://example.test/" None]
  = Some (Stub.fresh, 0) ∧
  repr Stub.fresh = "Scraper(html_loaded=False)" ∧
  select Stub.fresh "p" = Raise NotLoadedError.
Proof.
  pose proof (repr_tells_loaded None (Stub.always (Failed Timeout))
                [LoadFromUrl "http://example.test/" None; LoadHtml Stub.other_html]
                (load_html Stub.fresh Stub.other_html) 1 "p" eq_refl)
    as (Htrue & _).
  pose proof (repr_tells_loaded None (Stub.always (Failed Timeout))
                [LoadFromUrl "http://example.test/" None]
                Stub.fresh 0 "p" eq_refl)
    as (_ & Hfalse).
  split; [reflexivity |]. split; [apply Htrue; discriminate |].
  split; [reflexivity |]. split; [reflexivity |].
  apply (Hfalse eq_refl).
Defined.

(** * The example functions *)

Section Scripts.
Context {E : Bs4} {T : Bs4Tree E}.
Implicit Types (n : Net) (course : Tag) (courses : list Tag).

Lemma scrape_flatiron_courses_cases n :
  scrape_flatiron_courses n =
  let rq := mkRequest courses_url {[ "user-agent" := "my-app/0.0.1" ]} in
  let n' := mkNet (respond n) (sent n ++ [rq]) in
  match respond n (sent n) rq with
  | Failed why => (Aborted (Lib (RequestException why)), n')
  | Answered r =>
      match soup_select (BeautifulSoup (text r)) courses_selector with
      | Raise e => (Aborted (Lib e), n')
      | Return courses => (collect_courses courses [], n')
      end
  end.
Proof.
  unfold scrape_flatiron_courses, requests_get. simpl.
  destruct (respond n (sent n) _) as [r | why]; [| done].
  by destruct (soup_select _ _).
Qed.

Lemma scrape_heading_text_cases n :
  scrape_heading_text n =
  let rq := mkRequest heading_url {[ "user-agent" := "my-app/0.0.1" ]} in
  let n' := mkNet (respond n) (sent n ++ [rq]) in
  match respond n (sent n) rq with
  | Failed why => (Aborted (Lib (RequestException why)), n')
  | Answered r =>
      match soup_select (BeautifulSoup (text r)) heading_selector with
      | Raise e => (Aborted (Lib e), n')
      | Return [] => (Done (Str ""), n')
      | Return (h :: _) =>
          match tag_contents h with
          | [] => (Done (Str ""), n')
          | x :: _ => (node_strip x, n')
          end
      end
  end.
Proof.
  unfold scrape_heading_text, requests_get. simpl.
  destruct (respond n (sent n) _) as [r | why]; [| done].
  by destruct (soup_select _ _) as [[| h heading] | e].
Qed.

Lemma node_strip_no_index_error (x : Node) (msg : string) :
  node_strip x ≠ Aborted (IndexError msg).
Proof. destruct x as [s | t]; simpl; [done |]. by destruct (tag_child t "strip"). Qed.

Lemma collect_courses_strings courses (strs : list string) :
  Forall2 starts_with_string courses strs →
  ∀ course_list,
    collect_courses courses course_list =
    Done (course_list ++ ((λ s, Str (strip s)) <$> strs))%list.
Proof.
  induction 1 as [| course s courses strs [rest Hc] _ IH]; intros course_list; simpl.
  - by rewrite app_nil_r.
  - unfold first_stripped. rewrite Hc. simpl. rewrite IH. by rewrite <- app_assoc.
Qed.

Lemma collect_courses_hollow (before after : list Tag) course (strs : list string) :
  Forall2 starts_with_string before strs →
  tag_contents course = [] →
  ∀ course_list,
    collect_courses (before ++ course :: after) course_list =
    Aborted (IndexError "list index out of range").
Proof.
  intros Hbefore Hempty.
  induction Hbefore as [| c s before strs [rest Hc] _ IH]; intros course_list; simpl.
  - unfold first_stripped. by rewrite Hempty.
  - unfold first_stripped at 1. rewrite Hc. simpl. apply IH.
Qed.

(** X8: [scrape_heading_text] never raises [IndexError]: it reads the first
    child only of a first match that has children, and returns the empty
    string when nothing matches or the first match is empty. *)
Theorem scrape_heading_text_no_index_error n (msg : string) :
  (scrape_heading_text n).1 ≠ Aborted (IndexError msg) ∧
  (∀ r, respond n (sent n) (mkRequest heading_url {[ "user-agent" := "my-app/0.0.1" ]})
          = Answered r →
        soup_select (BeautifulSoup (text r)) heading_selector = Return [] →
        (scrape_heading_text n).1 = Done (Str "")) ∧
  (∀ r h heading,
        respond n (sent n) (mkRequest heading_url {[ "user-agent" := "my-app/0.0.1" ]})
          = Answered r →
        soup_select (BeautifulSoup (text r)) heading_selector = Return (h :: heading) →
        tag_contents h = [] →
        (scrape_heading_text n).1 = Done (Str "")).
Proof.
  rewrite scrape_heading_text_cases. simpl. split; [| split].
  - destruct (respond n (sent n) _) as [r | why]; [| done].
    destruct (soup_select _ _) as [[| h heading] | e]; try done.
    destruct (tag_contents h) as [| x rest]; [done |]. apply node_strip_no_index_error.
  - intros r -> ->. done.
  - intros r h heading -> -> ->. done.
Qed.

(** X9: when the page was fetched and the first child of every selected tag
    is a string, [scrape_flatiron_courses] returns those strings stripped,
    one per selected tag, in the order of the selection. *)
Theorem scrape_flatiron_courses_strings n (r : Response) courses (strs : list string) :
  respond n (sent n) (mkRequest courses_url {[ "user-agent" := "my-app/0.0.1" ]})
    = Answered r →
  soup_select (BeautifulSoup (text r)) courses_selector = Return courses →
  Forall2 starts_with_string courses strs →
  (scrape_flatiron_courses n).1 = Done ((λ s, Str (strip s)) <$> strs) ∧
  ∀ l, (scrape_flatiron_courses n).1 = Done l → length l = length courses.
Proof.
  intros Hr Hsel Hstrs. rewrite scrape_flatiron_courses_cases. simpl.
  rewrite Hr, Hsel. simpl. rewrite (collect_courses_strings _ _ Hstrs). simpl.
  split; [done |]. intros l [= <-].
  rewrite length_fmap. symmetry. by eapply Forall2_length.
Qed.

(** X10: when a selected tag has no child, and the first child of every
    selected tag before it is a string, [scrape_flatiron_courses] raises
    [IndexError] and returns none of the texts already collected. *)
Theorem scrape_flatiron_courses_hollow n (r : Response) (before after : list Tag)
  course (strs : list string) :
  respond n (sent n) (mkRequest courses_url {[ "user-agent" := "my-app/0.0.1" ]})
    = Answered r →
  soup_select (BeautifulSoup (text r)) courses_selector
    = Return (before ++ course :: after)%list →
  Forall2 starts_with_string before strs →
  tag_contents course = [] →
  (scrape_flatiron_courses n).1 = Aborted (IndexError "list index out of range").
Proof.
  intros Hr Hsel Hbefore Hempty. rewrite scrape_flatiron_courses_cases. simpl.
  rewrite Hr, Hsel. simpl. by eapply collect_courses_hollow.
Qed.

(** X11: the example functions do not look at the status of the response:
    two responses with the same body give the same result, whatever their
    status codes. *)
Theorem scripts_ignore_status n1 n2 (r1 r2 : Response) :
  text r1 = text r2 →
  (respond n1 (sent n1) (mkRequest courses_url {[ "user-agent" := "my-app/0.0.1" ]})
     = Answered r1 →
   respond n2 (sent n2) (mkRequest courses_url {[ "user-agent" := "my-app/0.0.1" ]})
     = Answered r2 →
   (scrape_flatiron_courses n1).1 = (scrape_flatiron_courses n2).1) ∧
  (respond n1 (sent n1) (mkRequest heading_url {[ "user-agent" := "my-app/0.0.1" ]})
     = Answered r1 →
   respond n2 (sent n2) (mkRequest heading_url {[ "user-agent" := "my-app/0.0.1" ]})
     = Answered r2 →
   (scrape_heading_text n1).1 = (scrape_heading_text n2).1).
Proof.
  intros Htext. split; intros H1 H2.
  - rewrite !scrape_flatiron_courses_cases. simpl. rewrite H1, H2, Htext.
    by destruct (soup_select _ _).
  - rewrite !scrape_heading_text_cases. simpl. rewrite H1, H2, Htext.
    destruct (soup_select _ _) as [[| h heading] | e]; try done.
    by destruct (tag_contents h).
Qed.

(** X12: each example function hands the client exactly one request, for its
    own URL with the single header [user-agent: my-app/0.0.1], whatever the
    outcome, and a transport failure leaves it as the client's exception. *)
Theorem scripts_send_one_request n :
  sent (scrape_flatiron_courses n).2 =
    (sent n ++ [mkRequest "https://flatironschool.com/our-courses/"
                  {[ "user-agent" := "my-app/0.0.1" ]}])%list ∧
  sent (scrape_heading_text n).2 =
    (sent n ++ [mkRequest "https://flatironschool.com/"
                  {[ "user-agent" := "my-app/0.0.1" ]}])%list ∧
  (∀ why, respond n (sent n) (mkRequest courses_url {[ "user-agent" := "my-app/0.0.1" ]})
            = Failed why →
          (scrape_flatiron_courses n).1 = Aborted (Lib (RequestException why))) ∧
  (∀ why, respond n (sent n) (mkRequest heading_url {[ "user-agent" := "my-app/0.0.1" ]})
            = Failed why →
          (scrape_heading_text n).1 = Aborted (Lib (RequestException why))).
Proof.
  rewrite scrape_flatiron_courses_cases, scrape_heading_text_cases. simpl.
  split; [| split; [| split]].
  - destruct (respond n (sent n) _) as [r | why]; [| done].
    by destruct (soup_select _ _).
  - destruct (respond n (sent n) _) as [r | why]; [| done].
    destruct (soup_select _ _) as [[| h heading] | e]; try done.
    by destruct (tag_contents h).
  - by intros why ->.
  - by intros why ->.
Qed.

End Scripts.

Lemma scrape_flatiron_courses_strings_witness :
  soup_select (Bs4:=Site.engine) (BeautifulSoup Site.courses_html) courses_selector =
    Return [Site.software; Site.data_science] ∧
  (scrape_flatiron_courses (T:=Site.tree)
     (Site.always (Answered (mkResponse 200 Site.courses_html)))).1 =
    Done [Str "Software Engineering"; Str "Data Science"].
Proof.
  split; [reflexivity |].
  apply (scrape_flatiron_courses_strings (T:=Site.tree)
           (Site.always (Answered (mkResponse 200 Site.courses_html)))
           (mkResponse 200 Site.courses_html)
           [Site.software; Site.data_science]
           [" Software Engineering" +:+ Site.newline; "Data Science"]
           eq_refl eq_refl).
  repeat constructor; eexists; reflexivity.
Defined.

Lemma scrape_flatiron_courses_hollow_witness :
  soup_select (Bs4:=Site.engine) (BeautifulSoup Site.hollow_html) courses_selector =
    Return [Site.design; Site.hollow] ∧
  tag_contents (Bs4Tree:=Site.tree) Site.hollow = [] ∧
  (scrape_flatiron_courses (T:=Site.tree)
     (Site.always (Answered (mkResponse 200 Site.hollow_html)))).1 =
    Aborted (IndexError "list index out of range").
Proof.
  split; [reflexivity |]. split; [reflexivity |].
  apply (scrape_flatiron_courses_hollow (T:=Site.tree)
           (Site.always (Answered (mkResponse 200 Site.hollow_html)))
           (mkResponse 200 Site.hollow_html)
           [Site.design] [] Site.hollow ["Design"]
           eq_refl eq_refl).
  - repeat constructor. eexists. reflexivity.
  - reflexivity.
Defined.

Lemma scripts_ignore_status_witness :
  (scrape_flatiron_courses (T:=Site.tree)
     (Site.always (Answered (mkResponse 404 Site.courses_html)))).1 =
  (scrape_flatiron_courses (T:=Site.tree)
     (Site.always (Answered (mkResponse 200 Site.courses_html)))).1 ∧
  (scrape_heading_text (T:=Site.tree)
     (Site.always (Answered (mkResponse 503 Site.heading_html)))).1 =
  (scrape_heading_text (T:=Site.tree)
     (Site.always (Answered (mkResponse 200 Site.heading_html)))).1.
Proof.
  split.
  - apply (scripts_ignore_status (T:=Site.tree)
             (Site.always (Answered (mkResponse 404 Site.courses_html)))
             (Site.always (Answered (mkResponse 200 Site.courses_html)))
             (mkResponse 404 Site.courses_html) (mkResponse 200 Site.courses_html)
             eq_refl); reflexivity.
  - apply (scripts_ignore_status (T:=Site.tree)
             (Site.always (Answered (mkResponse 503 Site.heading_html)))
             (Site.always (Answered (mkResponse 200 Site.heading_html)))
             (mkResponse 503 Site.heading_html) (mkResponse 200 Site.heading_html)
             eq_refl); reflexivity.
Defined.

Example scrape_heading_text_sample :
  (scrape_heading_text (T:=Site.tree)
     (Site.always (Answered (mkResponse 200 Site.heading_html)))).1 =
    Done (Str "Change things") ∧
  (scrape_heading_text (T:=Site.tree)
     (Site.always (Answered (mkResponse 200 Site.hollow_html)))).1 = Done (Str "").
Proof. split; reflexivity. Qed.

Example find_all_keyword_names_parameter :
  find_all Stub.sample "li" {[ "tag_name" := "ul" ]} = Raise (TypeError multiple_values_msg) ∧
  find Stub.fresh "li" {[ "self" := "x" ]} = Raise (TypeError multiple_values_msg) ∧
  (λ l, length l) <$> find_all Stub.sample "li" ∅ = Return 2.
Proof. repeat split. Qed.
